(** * fastapi-ecs-app: the request router of [app/main.py]

    [app/main.py] builds one application object, [app = FastAPI()], and
    registers two GET endpoints on it with the [@app.get] decorator:
    [read_root] on ["/"] and [read_item] on ["/hello/{name}"].

    The development embeds
    - the two handlers and the module body of [app/main.py];
    - the meaning of the framework calls the module makes: the routes
      [FastAPI()] registers with its default arguments, [app.get], the
      compilation of a path template to a pattern ([compile_path]), the
      match of one route ([Route.matches]) and the dispatch loop
      ([Router.app]) with its method check and its slash redirect;
    - what serving writes on the application object: the middleware stack,
      built on the first call ([Starlette.__call__]), and the OpenAPI
      schema, built from the routes on the first request for it
      ([FastAPI.openapi]);
    - the percent-decoding the ASGI server applies to the request target
      before the router sees the path.

    A Python [str] is a [string] holding its UTF-8 bytes; the separator
    ['/'] is a single byte that occurs in no multi-byte sequence, so matching
    on bytes and on code points agree.  A response is its status and its
    body; bodies are kept as values (the JSON value a handler returns), not
    as rendered bytes, and the headers of a response ([Content-Type],
    [Allow], [Location]) are not part of the model. *)

From Stdlib Require Import String Ascii List Bool ZArith Lia.
Import ListNotations.

Local Open Scope string_scope.
Local Open Scope Z_scope.

(** ** JSON values and Python dicts with string keys *)

#[local] Set Warnings "-register-all".

Inductive json : Type :=
| JNull
| JBool (b : bool)
| JNum (n : Z)
| JStr (s : string)
| JArr (items : list json)
| JObj (members : list (string * json)).

Fixpoint assoc {A : Type} (k : string) (l : list (string * A)) : option A :=
  match l with
  | [] => None
  | (k', v) :: l' => if String.eqb k k' then Some v else assoc k l'
  end.

(** [j["key"]] on a JSON object. *)
Definition json_get (k : string) (j : json) : option json :=
  match j with
  | JObj members => assoc k members
  | _ => None
  end.

Definition is_json_object (j : json) : bool :=
  match j with JObj _ => true | _ => false end.

(** ** Strings: the operations the router uses *)

Definition is_slash (c : ascii) : bool := Ascii.eqb c "/".

(** No ['/'] occurs in [s]. *)
Fixpoint slash_free (s : string) : bool :=
  match s with
  | EmptyString => true
  | String c s' => negb (is_slash c) && slash_free s'
  end.

Definition nonempty (s : string) : bool :=
  match s with EmptyString => false | String _ _ => true end.

(** [s.endswith("/")] *)
Fixpoint endswith_slash (s : string) : bool :=
  match s with
  | EmptyString => false
  | String c EmptyString => is_slash c
  | String _ s' => endswith_slash s'
  end.

(** [s.rstrip("/")]: every trailing ['/'] is removed. *)
Fixpoint rstrip_slash (s : string) : string :=
  match s with
  | EmptyString => EmptyString
  | String c s' =>
      match rstrip_slash s' with
      | EmptyString => if is_slash c then EmptyString else String c EmptyString
      | t => String c t
      end
  end.

(** [s] minus the prefix [p], when [s] starts with [p]. *)
Fixpoint strip_prefix (p s : string) : option string :=
  match p with
  | EmptyString => Some s
  | String a p' =>
      match s with
      | EmptyString => None
      | String b s' => if Ascii.eqb a b then strip_prefix p' s' else None
      end
  end.


(** ** A small state monad: the module's global [app] is the state *)

Module PyState.

Definition Py (S A : Type) : Type := S -> A * S.

Definition ret {S A : Type} (x : A) : Py S A := fun s => (x, s).

Definition bind {S A B : Type} (c : Py S A) (k : A -> Py S B) : Py S B :=
  fun s => let (x, s') := c s in k x s'.

Definition get {S : Type} : Py S S := fun s => (s, s).

Definition modify {S : Type} (f : S -> S) : Py S unit := fun s => (tt, f s).

Definition eval {S A : Type} (c : Py S A) (s : S) : A := fst (c s).

Definition exec {S A : Type} (c : Py S A) (s : S) : S := snd (c s).


End PyState.

Import PyState.

Declare Scope py_scope.
Delimit Scope py_scope with py.
Notation "x <- c ;; k" := (bind c (fun x => k))
  (at level 61, c at next level, right associativity) : py_scope.
Notation "c ;; k" := (bind c (fun _ => k))
  (at level 61, right associativity) : py_scope.
Local Open Scope py_scope.

(** ** Path templates ([starlette.routing.compile_path])

    A template is cut into literal text and [{param}] placeholders.  The
    placeholder of the default [str] convertor compiles to [[^/]+]; the
    pattern is anchored with [^] and [$].  Only the [{name}] form is
    modelled, which is the one [app/main.py] uses. *)

Inductive piece : Type :=
| Lit (text : string)
| Param (name : string).

Definition flush_lit (lit : string) (rest : list piece) : list piece :=
  match lit with
  | EmptyString => rest
  | _ => Lit lit :: rest
  end.

Definition snoc (s : string) (c : ascii) : string := s ++ String c EmptyString.

(** One pass over the template: [lit] is the literal text read so far,
    [par] the placeholder name being read, if any. *)
Fixpoint scan_template (s : string) (lit : string) (par : option string)
  : list piece :=
  match s with
  | EmptyString =>
      match par with
      | None => flush_lit lit []
      | Some n => flush_lit (lit ++ "{" ++ n) []
      end
  | String c s' =>
      match par with
      | None =>
          if Ascii.eqb c "{" then scan_template s' lit (Some "")
          else scan_template s' (snoc lit c) None
      | Some n =>
          if Ascii.eqb c "}" then flush_lit lit (Param n :: scan_template s' "" None)
          else scan_template s' lit (Some (snoc n c))
      end
  end.

Definition compile_path (template : string) : list piece :=
  scan_template template "" None.

Definition path_params : Type := list (string * string).

(** [$] of Python's [re]: the end of the string, or just before a newline
    that ends the string. *)
Definition at_end (s : string) : bool :=
  match s with
  | EmptyString => true
  | String c EmptyString => Ascii.eqb c (ascii_of_nat 10)
  | _ => false
  end.

(** [[^/]+] followed by the continuation [k]: greedy, the longest run is
    tried first and shorter ones on failure of [k]. *)
Fixpoint take_param {A : Type} (k : string -> option A) (s : string)
  : option (string * A) :=
  match s with
  | EmptyString => None
  | String c s' =>
      if is_slash c then None
      else
        match take_param k s' with
        | Some (v, e) => Some (String c v, e)
        | None =>
            match k s' with
            | Some e => Some (String c EmptyString, e)
            | None => None
            end
        end
  end.

(** [path_regex.match(path)] with [match.groupdict()] as result. *)
Fixpoint match_pieces (ps : list piece) (s : string) : option path_params :=
  match ps with
  | [] => if at_end s then Some [] else None
  | Lit l :: ps' =>
      match strip_prefix l s with
      | Some s' => match_pieces ps' s'
      | None => None
      end
  | Param n :: ps' =>
      match take_param (match_pieces ps') s with
      | Some (v, e) => Some ((n, v) :: e)
      | None => None
      end
  end.

(** ** Requests and responses *)

(** The ASGI scope of an HTTP request, as the router receives it: [path]
    is already percent-decoded. *)
Record request : Type := Request {
  method : string;
  path : string;
  query_string : string;
  headers : list (string * string);
  body : string
}.

Inductive endpoint : Type :=
| openapi
| swagger_ui_html
| swagger_ui_redirect
| redoc_html
| ep_read_root
| ep_read_item.

(** The [paths] of an OpenAPI schema, as far as they depend on the routes:
    for each path, in the order of the dict, the operations by method and
    the endpoint each one describes. *)
Definition openapi_paths : Type := list (string * list (string * endpoint)).

(** The pages the framework itself serves. *)
Inductive framework_page : Type :=
| OpenapiSchema (paths : openapi_paths)
| SwaggerUi
| SwaggerUiOauth2Redirect
| Redoc.

Inductive content : Type :=
| JsonContent (j : json)
| PageContent (p : framework_page)
| NoContent.

Record response : Type := Response {
  status_code : Z;
  media : content
}.

Definition JSONResponse (j : json) (status : Z) : response :=
  Response status (JsonContent j).

(** FastAPI's handler for [HTTPException]: [{"detail": <phrase>}]. *)
Definition http_exception (status : Z) (phrase : string) : response :=
  JSONResponse (JObj [("detail", JStr phrase)]) status.

Definition not_found : response := http_exception 404 "Not Found".

Definition method_not_allowed : response :=
  http_exception 405 "Method Not Allowed".

Definition unprocessable : response :=
  http_exception 422 "Unprocessable Entity".

(** [RedirectResponse(url)]: status 307 by default and an empty body; the
    url goes into the [Location] header. *)
Definition RedirectResponse : response := Response 307 NoContent.

(** ** Routes and the application object *)

Record route : Type := Route {
  route_path : string;
  route_methods : list string;
  route_endpoint : endpoint
}.

(** The middleware stack [build_middleware_stack] wraps around the router:
    the error and exception middleware, which leave the requests of this
    application as they are. *)
Inductive middleware_stack_t : Type := MiddlewareStack.

(** The application object: besides its routes and the redirect flag, the
    two attributes that are [None] at first and written while serving. *)
Record App : Type := MkApp {
  routes : list route;
  redirect_slashes : bool;
  openapi_schema : option openapi_paths;
  middleware_stack : option middleware_stack_t
}.

Definition set_routes (rs : list route) (a : App) : App :=
  MkApp rs (redirect_slashes a) (openapi_schema a) (middleware_stack a).

Definition set_openapi_schema (s : option openapi_paths) (a : App) : App :=
  MkApp (routes a) (redirect_slashes a) s (middleware_stack a).

Definition set_middleware_stack (m : option middleware_stack_t) (a : App) : App :=
  MkApp (routes a) (redirect_slashes a) (openapi_schema a) m.

(** [Route(path, endpoint)] of Starlette, used by [add_route]: methods
    default to GET, and HEAD is added to GET. *)
Definition starlette_route (p : string) (e : endpoint) : route :=
  Route p ["GET"; "HEAD"] e.

(** [FastAPI()] with every argument at its default: the OpenAPI schema and
    the two documentation pages are routed, slashes are redirected. *)
Definition FastAPI : App :=
  MkApp [ starlette_route "/openapi.json" openapi;
          starlette_route "/docs" swagger_ui_html;
          starlette_route "/docs/oauth2-redirect" swagger_ui_redirect;
          starlette_route "/redoc" redoc_html ]
        true None None.

(** [@app.get(path)]: an [APIRoute] with methods [{"GET"}] is appended to
    the routes of the application. *)
Definition app_get (p : string) (e : endpoint) : Py App unit :=
  modify (fun a => set_routes (routes a ++ [Route p ["GET"] e])%list a).

(** ** app/main.py *)

Definition welcome_message : string := "Welcome to the FastAPI ECS Fargate app!".

(** [f"Hello {name}!"] *)
Definition hello_message (name : string) : string := "Hello " ++ name ++ "!".

Definition read_root : Py App json :=
  ret (JObj [("message", JStr welcome_message)]).

Definition read_item (name : string) : Py App json :=
  ret (JObj [("message", JStr (hello_message name))]).

(** The decorators of the module body, run on the fresh application. *)
Definition main : Py App unit :=
  app_get "/" ep_read_root ;;
  app_get "/hello/{name}" ep_read_item.

Definition app : App := exec main FastAPI.

(** The two routes the module registers. *)
Definition handler_routes : list route :=
  [ Route "/" ["GET"] ep_read_root; Route "/hello/{name}" ["GET"] ep_read_item ].

(** ** The OpenAPI schema *)

(** [c.lower()] on one ASCII character. *)
Definition lower_ascii (c : ascii) : ascii :=
  let n := N_of_ascii c in
  if ((65 <=? n) && (n <=? 90))%N then ascii_of_N (n + 32) else c.

(** [s.lower()] *)
Fixpoint lower (s : string) : string :=
  match s with
  | EmptyString => EmptyString
  | String c s' => String (lower_ascii c) (lower s')
  end.

(** [d[k] = v] on a dict kept in insertion order: a key that is present
    keeps its place. *)
Fixpoint dict_set {A : Type} (k : string) (v : A) (d : list (string * A))
  : list (string * A) :=
  match d with
  | [] => [(k, v)]
  | (k', v') :: d' =>
      if String.eqb k k' then (k', v) :: d' else (k', v') :: dict_set k v d'
  end.

(** [d.update(other)] *)
Definition dict_update {A : Type} (d other : list (string * A))
  : list (string * A) :=
  fold_left (fun acc kv => dict_set (fst kv) (snd kv) acc) other d.

(** The routes [app.get] makes are [APIRoute]s, which the schema lists;
    the framework's pages are added with [include_in_schema=False]. *)
Definition include_in_schema (r : route) : bool :=
  match route_endpoint r with
  | ep_read_root | ep_read_item => true
  | _ => false
  end.

(** [get_openapi_path]: one operation per method of the route. *)
Definition get_openapi_path (r : route) : list (string * endpoint) :=
  if include_in_schema r
  then map (fun m => (lower m, route_endpoint r)) (route_methods r)
  else [].

(** The loop of [get_openapi] over the routes:
    [paths.setdefault(route.path_format, {}).update(path)]. *)
Definition get_openapi (rs : list route) : openapi_paths :=
  fold_left
    (fun paths r =>
       match get_openapi_path r with
       | [] => paths
       | ops =>
           dict_set (route_path r)
             (dict_update (match assoc (route_path r) paths with
                           | Some d => d
                           | None => []
                           end) ops)
             paths
       end)
    rs [].

(** ** Dispatch *)

(** [FastAPI.openapi]: the schema is built on the first call and stored on
    the application; later calls return what is stored. *)
Definition app_openapi : Py App openapi_paths :=
  a <- get ;;
  match openapi_schema a with
  | Some s => ret s
  | None =>
      let s := get_openapi (routes a) in
      modify (set_openapi_schema (Some s)) ;;
      ret s
  end.

(** The request handler FastAPI wraps around an endpoint: parameters are
    taken from the path parameters, the result is sent as JSON with 200. *)
Definition call_endpoint (e : endpoint) (params : path_params) : Py App response :=
  match e with
  | openapi =>
      s <- app_openapi ;;
      ret (Response 200 (PageContent (OpenapiSchema s)))
  | swagger_ui_html => ret (Response 200 (PageContent SwaggerUi))
  | swagger_ui_redirect => ret (Response 200 (PageContent SwaggerUiOauth2Redirect))
  | redoc_html => ret (Response 200 (PageContent Redoc))
  | ep_read_root =>
      j <- read_root ;;
      ret (JSONResponse j 200)
  | ep_read_item =>
      match assoc "name" params with
      | Some name =>
          j <- read_item name ;;
          ret (JSONResponse j 200)
      | None => ret unprocessable
      end
  end.

(** [starlette.routing.Match] *)
Inductive Match : Type := NONE | PARTIAL | FULL.

Definition allows (r : route) (m : string) : bool :=
  match route_methods r with
  | [] => true
  | ms => existsb (String.eqb m) ms
  end.

(** [Route.matches] *)
Definition matches (r : route) (m p : string) : Match * path_params :=
  match match_pieces (compile_path (route_path r)) p with
  | Some params => if allows r m then (FULL, params) else (PARTIAL, params)
  | None => (NONE, [])
  end.

(** [Route.handle] *)
Definition handle (r : route) (m : string) (params : path_params)
  : Py App response :=
  if allows r m then call_endpoint (route_endpoint r) params
  else ret method_not_allowed.

(** The first loop of [Router.app]: the first full match wins; the first
    partial match is remembered. *)
Fixpoint find_route (rs : list route) (m p : string)
    (partial : option (route * path_params))
  : option (route * path_params) :=
  match rs with
  | [] => partial
  | r :: rs' =>
      match matches r m p with
      | (FULL, params) => Some (r, params)
      | (PARTIAL, params) =>
          find_route rs' m p
            (match partial with None => Some (r, params) | Some _ => partial end)
      | (NONE, _) => find_route rs' m p partial
      end
  end.

(** The path tried by the slash redirect. *)
Definition toggle_slash (p : string) : string :=
  if endswith_slash p then rstrip_slash p else p ++ "/".

Definition matches_some (rs : list route) (m p : string) : bool :=
  existsb (fun r => match fst (matches r m p) with NONE => false | _ => true end) rs.

(** [Router.app] *)
Definition router (req : request) : Py App response :=
  a <- get ;;
  match find_route (routes a) (method req) (path req) None with
  | Some (r, params) => handle r (method req) params
  | None =>
      if redirect_slashes a
         && negb (String.eqb (path req) "/")
         && matches_some (routes a) (method req) (toggle_slash (path req))
      then ret RedirectResponse
      else ret not_found
  end.

(** [Starlette.__call__]: the middleware stack is built on the first call
    and stored on the application; the request then goes through it to the
    router. *)
Definition app_call (req : request) : Py App response :=
  a <- get ;;
  match middleware_stack a with
  | None => modify (set_middleware_stack (Some MiddlewareStack))
  | Some _ => ret tt
  end ;;
  router req.

(** The response of [app] to one request, the first it serves. *)
Definition respond (req : request) : response := eval (app_call req) app.


(** The path matches the pattern of the route, whatever the method. *)
Definition path_matches (r : route) (p : string) : bool :=
  match match_pieces (compile_path (route_path r)) p with
  | Some _ => true
  | None => false
  end.

(** ** The ASGI server's view of the request target *)

Definition hex_value (c : ascii) : option N :=
  let n := N_of_ascii c in
  if ((48 <=? n) && (n <=? 57))%N then Some (n - 48)%N
  else if ((65 <=? n) && (n <=? 70))%N then Some (n - 55)%N
  else if ((97 <=? n) && (n <=? 102))%N then Some (n - 87)%N
  else None.

(** [urllib.parse.unquote_to_bytes]: [%XX] with two hex digits is one
    byte, any other ['%'] stays. *)
Fixpoint unquote_to_bytes (s : string) : string :=
  match s with
  | EmptyString => EmptyString
  | String c s' =>
      if Ascii.eqb c "%" then
        match s' with
        | String h (String l rest) =>
            match hex_value h, hex_value l with
            | Some a, Some b => String (ascii_of_N (16 * a + b)) (unquote_to_bytes rest)
            | _, _ => String c (unquote_to_bytes s')
            end
        | _ => String c (unquote_to_bytes s')
        end
      else String c (unquote_to_bytes s')
  end.

Definition in_range (lo hi : N) (c : ascii) : bool :=
  ((lo <=? N_of_ascii c) && (N_of_ascii c <=? hi))%N.

(** U+FFFD, the replacement character, in UTF-8. *)
Definition replacement : string :=
  String (ascii_of_nat 239) (String (ascii_of_nat 191) (String (ascii_of_nat 189) EmptyString)).

(** The second byte a lead byte of a three- or four-byte sequence admits. *)
Definition second_ok (lead c : ascii) : bool :=
  let l := N_of_ascii lead in
  if (l =? 224)%N then in_range 160 191 c
  else if (l =? 237)%N then in_range 128 159 c
  else if (l =? 240)%N then in_range 144 191 c
  else if (l =? 244)%N then in_range 128 143 c
  else in_range 128 191 c.

(** [bytes.decode("utf-8", "replace")], read as a map on UTF-8 bytes: a
    well-formed sequence stays, and each longest ill-formed run that starts
    a sequence becomes U+FFFD. *)
Fixpoint decode_replace (s : string) : string :=
  match s with
  | EmptyString => EmptyString
  | String b0 s1 =>
      if in_range 0 127 b0 then String b0 (decode_replace s1)
      else if in_range 194 223 b0 then
        match s1 with
        | String b1 s2 =>
            if in_range 128 191 b1 then String b0 (String b1 (decode_replace s2))
            else replacement ++ decode_replace s1
        | EmptyString => replacement
        end
      else if in_range 224 239 b0 then
        match s1 with
        | String b1 s2 =>
            if second_ok b0 b1 then
              match s2 with
              | String b2 s3 =>
                  if in_range 128 191 b2
                  then String b0 (String b1 (String b2 (decode_replace s3)))
                  else replacement ++ decode_replace s2
              | EmptyString => replacement
              end
            else replacement ++ decode_replace s1
        | EmptyString => replacement
        end
      else if in_range 240 244 b0 then
        match s1 with
        | String b1 s2 =>
            if second_ok b0 b1 then
              match s2 with
              | String b2 s3 =>
                  if in_range 128 191 b2 then
                    match s3 with
                    | String b3 s4 =>
                        if in_range 128 191 b3
                        then String b0 (String b1 (String b2 (String b3 (decode_replace s4))))
                        else replacement ++ decode_replace s3
                    | EmptyString => replacement
                    end
                  else replacement ++ decode_replace s2
              | EmptyString => replacement
              end
            else replacement ++ decode_replace s1
        | EmptyString => replacement
        end
      else replacement ++ decode_replace s1
  end.

(** [urllib.parse.unquote] on the ASCII text of a request target: the
    escapes are turned into bytes and the bytes decoded as UTF-8, with
    U+FFFD for what is not UTF-8. *)
Definition unquote (s : string) : string :=
  decode_replace (unquote_to_bytes s).

(** The target, ASCII text, is cut at the first ['?']. *)
Fixpoint split_target (s : string) : string * string :=
  match s with
  | EmptyString => (EmptyString, EmptyString)
  | String c s' =>
      if Ascii.eqb c "?" then (EmptyString, s')
      else let (p, q) := split_target s' in (String c p, q)
  end.

(** The scope the server builds for the request line [m target]. *)
Definition http_request (m target : string) (hs : list (string * string))
    (b : string) : request :=
  let (p, q) := split_target target in
  Request m (unquote p) q hs b.

(** Some route of [rs] has a pattern that matches [p]. *)
Definition matches_any (rs : list route) (p : string) : bool :=
  existsb (fun r => path_matches r p) rs.

Definition root_route : route := Route "/" ["GET"] ep_read_root.

Definition hello_route : route := Route "/hello/{name}" ["GET"] ep_read_item.

Definition newline : string := String (ascii_of_nat 10) EmptyString.

(** 世界, as its six UTF-8 bytes. *)
Definition shijie : string := "世界".

(** The two successful responses. *)
Definition greeting (name : string) : response :=
  JSONResponse (JObj [("message", JStr ("Hello " ++ name ++ "!"))]) 200.

Definition welcome : response :=
  JSONResponse (JObj [("message", JStr "Welcome to the FastAPI ECS Fargate app!")]) 200.




(** A path segment: a non-empty run without ['/']. *)
Definition segment (s : string) : bool := nonempty s && slash_free s.

(** The fixed paths of the routes [FastAPI()] registers. *)
Definition literal_paths : list string :=
  [ "/openapi.json"; "/docs"; "/docs/oauth2-redirect"; "/redoc" ].

(** The methods of a Starlette [Route] made by [add_route]. *)
Definition serves_pages (m : string) : bool :=
  String.eqb m "GET" || String.eqb m "HEAD".

(** The module body with its two decorated functions in the other order. *)
Definition main_swapped : Py App unit :=
  app_get "/hello/{name}" ep_read_item ;;
  app_get "/" ep_read_root.

(** [app] once its middleware stack is built. *)
Definition app_started : App :=
  set_middleware_stack (Some MiddlewareStack) app.

(** The application after the module body with the decorators swapped. *)
Definition app_swapped : App := exec main_swapped FastAPI.

Definition openapi_route : route := Route "/openapi.json" ["GET"; "HEAD"] openapi.





(** The four ways [app] answers a request: no pattern matches the path;
    the path is [read_root]'s; the path is [read_item]'s, with the name [x];
    the path is one of the framework's pages. *)
Inductive outcome (req : request) : Prop :=
| Unmatched :
    matches_any (routes app) (path req) = false ->
    matches_any handler_routes (path req) = false ->
    matches_any (routes FastAPI) (path req) = false ->
    respond req
    = (if matches_any (routes app) (toggle_slash (path req))
       then RedirectResponse else not_found) ->
    outcome req
| AtRoot :
    path req = "/" \/ path req = ("/" ++ newline)%string ->
    matches_any handler_routes (path req) = true ->
    matches_any (routes FastAPI) (path req) = false ->
    respond req
    = (if String.eqb (method req) "GET" then welcome else method_not_allowed) ->
    outcome req
| AtHello (x : string) :
    path req = ("/hello/" ++ x)%string ->
    segment x = true ->
    matches_any handler_routes (path req) = true ->
    matches_any (routes FastAPI) (path req) = false ->
    respond req
    = (if String.eqb (method req) "GET" then greeting x else method_not_allowed) ->
    outcome req
| AtPage (pg : framework_page) :
    matches_any handler_routes (path req) = false ->
    matches_any (routes FastAPI) (path req) = true ->
    respond req
    = (if serves_pages (method req)
       then Response 200 (PageContent pg) else method_not_allowed) ->
    outcome req.

(** * Properties *)

(** ** Strings *)

Lemma shijie_bytes :
  shijie = String (ascii_of_nat 228) (String (ascii_of_nat 184)
            (String (ascii_of_nat 150) (String (ascii_of_nat 231)
            (String (ascii_of_nat 149) (String (ascii_of_nat 140) EmptyString))))).
Proof. reflexivity. Qed.


Lemma append_inv_head (a b c : string) : (a ++ b = a ++ c)%string -> b = c.
Proof.
  induction a as [|x a IH]; simpl; intros H; [exact H |].
  injection H as H. now apply IH.
Qed.

Lemma append_inv_tail (c : ascii) (a b : string) :
  (a ++ String c "" = b ++ String c "")%string -> a = b.
Proof.
  revert b. induction a as [|x a IH]; intros [|y b]; simpl; intros H.
  - reflexivity.
  - injection H as _ H. destruct b; discriminate H.
  - injection H as _ H. destruct a; discriminate H.
  - injection H as Hx H. subst y. f_equal. now apply IH.
Qed.

Lemma strip_prefix_Some (l s t : string) :
  strip_prefix l s = Some t -> s = (l ++ t)%string.
Proof.
  revert s. induction l as [|a l IH]; simpl; intros s H.
  - now injection H.
  - destruct s as [|b s]; [discriminate |].
    destruct (Ascii.eqb_spec a b) as [->|]; [|discriminate].
    f_equal. now apply IH.
Qed.

Lemma strip_prefix_append (l t : string) : strip_prefix l (l ++ t) = Some t.
Proof.
  induction l as [|a l IH]; simpl; [reflexivity |].
  now rewrite Ascii.eqb_refl.
Qed.




(** ** Patterns *)

Lemma compile_root : compile_path "/" = [Lit "/"].
Proof. reflexivity. Qed.

Lemma compile_hello : compile_path "/hello/{name}" = [Lit "/hello/"; Param "name"].
Proof. reflexivity. Qed.

(** [[^/]+$] takes the whole rest of the path, which must be a non-empty
    run without ['/']. *)
Lemma take_param_end (s : string) :
  take_param (match_pieces []) s
  = if nonempty s && slash_free s then Some (s, []) else None.
Proof.
  induction s as [|c s IH]; [reflexivity |].
  cbn [take_param nonempty slash_free andb].
  destruct (is_slash c); [reflexivity |].
  rewrite IH. cbn [negb andb].
  destruct s as [|d s]; [reflexivity |].
  cbn [nonempty andb].
  destruct (slash_free (String d s)) eqn:E; [reflexivity |].
  cbn [match_pieces at_end].
  destruct s as [|e s]; [|reflexivity].
  destruct (Ascii.eqb_spec d (ascii_of_nat 10)) as [->|]; [discriminate E | reflexivity].
Qed.

Lemma match_hello (x : string) :
  match_pieces (compile_path "/hello/{name}") ("/hello/" ++ x)
  = if nonempty x && slash_free x then Some [("name", x)] else None.
Proof.
  rewrite compile_hello. cbn [match_pieces].
  rewrite strip_prefix_append, take_param_end.
  now destruct (nonempty x && slash_free x).
Qed.


Lemma path_matches_hello_inv (p : string) :
  path_matches hello_route p = true ->
  exists x, p = ("/hello/" ++ x)%string /\ nonempty x = true /\ slash_free x = true.
Proof.
  unfold path_matches, hello_route. cbn [route_path].
  rewrite compile_hello. cbn [match_pieces].
  destruct (strip_prefix "/hello/" p) as [x|] eqn:E; [|discriminate].
  apply strip_prefix_Some in E. rewrite take_param_end.
  destruct (nonempty x) eqn:Hn; destruct (slash_free x) eqn:Hs;
    cbn [andb]; try discriminate.
  intros _. now exists x.
Qed.

Lemma path_matches_root_inv (p : string) :
  path_matches root_route p = true -> p = "/" \/ p = ("/" ++ newline)%string.
Proof.
  unfold path_matches, root_route. cbn [route_path].
  rewrite compile_root. cbn [match_pieces].
  destruct (strip_prefix "/" p) as [x|] eqn:E; [|discriminate].
  apply strip_prefix_Some in E. subst p.
  destruct x as [|c [|d x]]; cbn [at_end]; try discriminate.
  - now left.
  - destruct (Ascii.eqb_spec c (ascii_of_nat 10)) as [->|]; [|discriminate].
    now right.
Qed.

(** ** Dispatch *)

Lemma app_routes :
  routes app = (routes FastAPI ++ [root_route; hello_route])%list.
Proof. reflexivity. Qed.

Lemma app_redirects : redirect_slashes app = true.
Proof. reflexivity. Qed.

(** The first request finds no middleware stack; once the stack is built
    the request is the router's. *)
Lemma respond_router (req : request) :
  respond req = eval (router req) app_started.
Proof. reflexivity. Qed.

Ltac enter_router :=
  rewrite respond_router; unfold eval, router, bind, get;
  change (routes app_started) with (routes app);
  change (redirect_slashes app_started) with (redirect_slashes app).

Lemma matches_some_any (rs : list route) (m p : string) :
  matches_some rs m p = matches_any rs p.
Proof.
  induction rs as [|r rs IH]; [reflexivity |].
  cbn [matches_some matches_any existsb].
  fold (matches_some rs m p). fold (matches_any rs p). rewrite IH.
  unfold matches, path_matches.
  destruct (match_pieces (compile_path (route_path r)) p); [|reflexivity].
  now destruct (allows r m).
Qed.

(** When no pattern matches, the loop leaves [partial] as it is. *)
Lemma find_route_unmatched (rs : list route) (m p : string) partial :
  matches_any rs p = false -> find_route rs m p partial = partial.
Proof.
  induction rs as [|r rs IH]; [reflexivity |].
  cbn [matches_any existsb]. fold (matches_any rs p).
  intros H. apply orb_false_elim in H as [Hr Hrs].
  cbn [find_route]. unfold matches. unfold path_matches in Hr.
  destruct (match_pieces (compile_path (route_path r)) p); [discriminate |].
  now apply IH.
Qed.

(** The routes of [FastAPI()] are fixed texts, none under [/hello/]. *)
Lemma framework_routes_miss_hello (x : string) :
  matches_any (routes FastAPI) ("/hello/" ++ x) = false.
Proof. reflexivity. Qed.


Lemma matches_any_append (rs rs' : list route) (p : string) :
  matches_any (rs ++ rs')%list p = matches_any rs p || matches_any rs' p.
Proof. unfold matches_any. apply existsb_app. Qed.

Lemma find_route_append (rs rs' : list route) (m p : string) partial :
  matches_any rs p = false ->
  find_route (rs ++ rs')%list m p partial = find_route rs' m p partial.
Proof.
  induction rs as [|r rs IH]; [reflexivity |].
  cbn [matches_any existsb]. fold (matches_any rs p).
  intros H. apply orb_false_elim in H as [Hr Hrs].
  cbn [List.app find_route]. unfold matches. unfold path_matches in Hr.
  destruct (match_pieces (compile_path (route_path r)) p); [discriminate |].
  now apply IH.
Qed.


(** Under [/hello/] only [read_item]'s route can be chosen. *)
Lemma find_route_hello (m x : string) :
  find_route (routes app) m ("/hello/" ++ x) None
  = if nonempty x && slash_free x
    then Some (hello_route, [("name", x)]) else None.
Proof.
  rewrite app_routes, find_route_append by apply framework_routes_miss_hello.
  cbn [find_route].
  replace (matches root_route m ("/hello/" ++ x)) with (NONE, @nil (string * string))
    by reflexivity.
  unfold matches at 1. cbn [hello_route route_path]. rewrite match_hello.
  destruct (nonempty x && slash_free x); [|reflexivity].
  now destruct (allows _ m).
Qed.

(** The response on a path of [read_item]'s route, for any method. *)
Lemma respond_hello (m x q : string) hs b :
  nonempty x = true -> slash_free x = true ->
  respond (Request m ("/hello/" ++ x) q hs b)
  = if String.eqb m "GET" then greeting x else method_not_allowed.
Proof.
  intros Hn Hs. enter_router.
  cbn [method path query_string].
  rewrite find_route_hello, Hn, Hs. cbn [andb].
  unfold handle, allows. cbn [hello_route route_methods route_endpoint existsb].
  rewrite orb_false_r.
  now destruct (String.eqb m "GET").
Qed.

(** The response on ["/"], for any method. *)
Lemma respond_root (m q : string) hs b :
  respond (Request m "/" q hs b)
  = if String.eqb m "GET" then welcome else method_not_allowed.
Proof.
  enter_router.
  cbn [method path query_string].
  rewrite app_routes, find_route_append by reflexivity.
  cbn. rewrite orb_false_r.
  destruct (String.eqb m "GET") eqn:E;
    unfold handle, allows; cbn; now rewrite E.
Qed.

(** The same holds on ["/\n"], which the pattern [^/$] accepts too. *)
Lemma respond_root_newline (m q : string) hs b :
  respond (Request m ("/" ++ newline) q hs b)
  = if String.eqb m "GET" then welcome else method_not_allowed.
Proof.
  enter_router.
  cbn [method path query_string].
  rewrite app_routes, find_route_append by reflexivity.
  cbn. rewrite orb_false_r.
  destruct (String.eqb m "GET") eqn:E;
    unfold handle, allows; cbn; now rewrite E.
Qed.

(** The response when no pattern matches the path. *)
Lemma respond_unmatched (req : request) :
  matches_any (routes app) (path req) = false ->
  respond req
  = if matches_any (routes app) (toggle_slash (path req))
    then RedirectResponse else not_found.
Proof.
  intros H. enter_router.
  rewrite find_route_unmatched by exact H.
  rewrite app_redirects, matches_some_any. cbn [andb].
  destruct (String.eqb_spec (path req) "/") as [E|_].
  - rewrite E in H. discriminate H.
  - cbn [negb andb].
    now destruct (matches_any (routes app) (toggle_slash (path req))).
Qed.

(** A path matched by a route of [app/main.py]. *)
Lemma handler_path_inv (p : string) :
  matches_any handler_routes p = true ->
  p = "/" \/ p = ("/" ++ newline)%string
  \/ exists x, p = ("/hello/" ++ x)%string /\ nonempty x = true /\ slash_free x = true.
Proof.
  unfold matches_any, handler_routes. cbn [existsb].
  fold root_route. fold hello_route. rewrite orb_false_r.
  intros H. apply orb_prop in H as [H|H].
  - apply path_matches_root_inv in H as [H|H]; auto.
  - right. right. now apply path_matches_hello_inv.
Qed.

(** ** The state of the application while serving *)





(** * The specification's properties *)

(** C1. For every non-empty string [s] without ['/'], a GET request whose
    decoded path is [/hello/s] is answered with status 200 and the JSON body
    [{"message": "Hello s!"}], [s] taken as it is, whatever its length and
    whatever the other fields of the request. *)
Theorem hello_greets (req : request) (s : string) :
  method req = "GET" ->
  path req = ("/hello/" ++ s)%string ->
  nonempty s = true ->
  slash_free s = true ->
  respond req = JSONResponse (JObj [("message", JStr ("Hello " ++ s ++ "!"))]) 200.
Proof.
  destruct req as [m p q hs b]. cbn [method path].
  intros -> -> Hn Hs. now rewrite respond_hello.
Qed.

Lemma hello_greets_witness :
  nonempty "World" = true /\ slash_free "World" = true
  /\ respond (Request "GET" "/hello/World" "utm=1" [("accept", "*/*")] "")
     = JSONResponse (JObj [("message", JStr "Hello World!")]) 200.
Proof.
  split; [reflexivity | split; [reflexivity |]].
  apply (hello_greets (Request "GET" "/hello/World" "utm=1" [("accept", "*/*")] "")
           "World"); reflexivity.
Defined.

(** C2. Every GET request on [/] is answered with status 200 and the JSON
    body [{"message": "Welcome to the FastAPI ECS Fargate app!"}], whatever
    the query string, the headers and the body of the request. *)
Theorem root_welcomes (req : request) :
  method req = "GET" ->
  path req = "/" ->
  respond req
  = JSONResponse (JObj [("message", JStr "Welcome to the FastAPI ECS Fargate app!")]) 200.
Proof.
  destruct req as [m p q hs b]. cbn [method path].
  intros -> ->. now rewrite respond_root.
Qed.

Lemma root_welcomes_witness :
  respond (Request "GET" "/" "x=1" [("host", "example.org")] "ignored")
  = JSONResponse (JObj [("message", JStr "Welcome to the FastAPI ECS Fargate app!")]) 200.
Proof.
  apply (root_welcomes (Request "GET" "/" "x=1" [("host", "example.org")] "ignored"));
    reflexivity.
Defined.

(** C4. A GET request on [/hello/], where the name would be the empty
    string, matches no route and is answered with 404 Not Found, not with a
    greeting. *)
Theorem empty_name_is_not_found (req : request) :
  method req = "GET" ->
  path req = "/hello/" ->
  matches_any (routes app) (path req) = false
  /\ respond req = not_found
  /\ status_code (respond req) = 404.
Proof.
  destruct req as [m p q hs b]. cbn [method path].
  intros -> ->. repeat split; reflexivity.
Qed.

Lemma empty_name_is_not_found_witness :
  status_code (respond (Request "GET" "/hello/" "" [] "")) = 404.
Proof.
  apply (empty_name_is_not_found (Request "GET" "/hello/" "" [] "")); reflexivity.
Defined.

(** C7. The request [GET /hello/%E4%B8%96%E7%95%8C], which is
    [GET /hello/世界] percent-encoded, is answered with status 200 and the
    body [{"message": "Hello 世界!"}]; so is the request whose decoded path
    is [/hello/世界]. *)
Theorem hello_unicode (q : string) (hs : list (string * string)) (b : string) :
  path (http_request "GET" "/hello/%E4%B8%96%E7%95%8C" hs b) = ("/hello/" ++ shijie)%string
  /\ respond (http_request "GET" "/hello/%E4%B8%96%E7%95%8C" hs b)
     = JSONResponse (JObj [("message", JStr "Hello 世界!")]) 200
  /\ respond (Request "GET" "/hello/世界" q hs b)
     = JSONResponse (JObj [("message", JStr "Hello 世界!")]) 200.
Proof.
  split; [reflexivity |].
  split.
  - change (http_request "GET" "/hello/%E4%B8%96%E7%95%8C" hs b)
      with (Request "GET" ("/hello/" ++ shijie) "" hs b).
    now rewrite respond_hello.
  - change "/hello/世界" with ("/hello/" ++ shijie)%string.
    now rewrite respond_hello.
Qed.

(** C9. Two GET requests with the same decoded path, matched by a route of
    [app/main.py], get the same response, whatever their query strings,
    headers and bodies. *)
Theorem response_ignores_rest (r1 r2 : request) :
  method r1 = "GET" ->
  method r2 = "GET" ->
  path r1 = path r2 ->
  matches_any handler_routes (path r1) = true ->
  respond r1 = respond r2.
Proof.
  destruct r1 as [m1 p1 q1 h1 b1], r2 as [m2 p2 q2 h2 b2]. cbn [method path].
  intros -> -> <- H.
  apply handler_path_inv in H as [->|[->|(x & -> & Hn & Hs)]].
  - now rewrite !respond_root.
  - now rewrite !respond_root_newline.
  - now rewrite !respond_hello.
Qed.

Lemma response_ignores_rest_witness :
  respond (Request "GET" "/hello/World" "a=1" [("x-trace", "1")] "one")
  = respond (Request "GET" "/hello/World" "b=2" [("cookie", "k=v")] "two").
Proof.
  apply (response_ignores_rest
           (Request "GET" "/hello/World" "a=1" [("x-trace", "1")] "one")
           (Request "GET" "/hello/World" "b=2" [("cookie", "k=v")] "two"));
    reflexivity.
Defined.

(** C10. The greeting is injective in the name: distinct names give
    distinct messages ["Hello " + name + "!"], and so distinct [message]
    members in what [read_item] returns. *)
Theorem hello_message_injective (n1 n2 : string) (a : App) :
  n1 <> n2 ->
  hello_message n1 <> hello_message n2
  /\ json_get "message" (eval (read_item n1) a)
     <> json_get "message" (eval (read_item n2) a).
Proof.
  intros Hne.
  assert (Hinj : hello_message n1 = hello_message n2 -> n1 = n2).
  { unfold hello_message. intros H.
    apply append_inv_head in H. now apply append_inv_tail in H. }
  split.
  - intros H. now apply Hne, Hinj.
  - intros H. apply Hne, Hinj.
    assert (E : forall x y : string, Some (JStr x) = Some (JStr y) -> x = y)
      by (intros x y E; now injection E).
    apply E, H.
Qed.

Lemma hello_message_injective_witness :
  "Ann" <> "Bob" /\ hello_message "Ann" <> hello_message "Bob".
Proof.
  split; [discriminate |].
  apply (hello_message_injective "Ann" "Bob" app). discriminate.
Defined.






(** C6. What either handler returns is a JSON object whose member
    [message] is present and is a string; every response with status 200 on
    a path of their routes carries such an object as its body. *)
Theorem handler_bodies_carry_message :
  (forall a : App,
      is_json_object (eval read_root a) = true
      /\ exists m, json_get "message" (eval read_root a) = Some (JStr m))
  /\ (forall (name : string) (a : App),
      is_json_object (eval (read_item name) a) = true
      /\ exists m, json_get "message" (eval (read_item name) a) = Some (JStr m))
  /\ (forall req : request,
      matches_any handler_routes (path req) = true ->
      status_code (respond req) = 200 ->
      exists j m,
        media (respond req) = JsonContent j
        /\ is_json_object j = true
        /\ json_get "message" j = Some (JStr m)).
Proof.
  split; [| split].
  - intros a. split; [reflexivity |]. now exists welcome_message.
  - intros name a. split; [reflexivity |]. now exists (hello_message name).
  - intros [m p q hs b]. cbn [path]. intros H.
    apply handler_path_inv in H as [->|[->|(x & -> & Hn & Hs)]].
    + rewrite respond_root. destruct (String.eqb m "GET"); [|discriminate].
      intros _. now eexists _, _.
    + rewrite respond_root_newline. destruct (String.eqb m "GET"); [|discriminate].
      intros _. now eexists _, _.
    + rewrite respond_hello by assumption.
      destruct (String.eqb m "GET"); [|discriminate].
      intros _. now eexists _, _.
Qed.

Lemma handler_bodies_carry_message_witness :
  exists j m,
    media (respond (Request "GET" "/hello/World" "" [] "")) = JsonContent j
    /\ is_json_object j = true
    /\ json_get "message" j = Some (JStr m).
Proof.
  apply (proj2 (proj2 handler_bodies_carry_message)
           (Request "GET" "/hello/World" "" [] "")); reflexivity.
Defined.











(** * Further properties of the application *)

(** ** The paths of the framework's routes *)

Lemma match_lit_inv (l p : string) (e : path_params) :
  match_pieces [Lit l] p = Some e -> p = l \/ p = (l ++ newline)%string.
Proof.
  cbn [match_pieces].
  destruct (strip_prefix l p) as [x|] eqn:E; [|discriminate].
  apply strip_prefix_Some in E. subst p.
  destruct x as [|c [|d x]]; cbn [at_end]; try discriminate.
  - intros _. left. clear. induction l as [|a l IH]; [reflexivity |].
    cbn. now rewrite IH.
  - destruct (Ascii.eqb_spec c (ascii_of_nat 10)) as [->|]; [|discriminate].
    intros _. now right.
Qed.

Lemma path_matches_lit_inv (l : string) ms ep (p : string) :
  compile_path l = [Lit l] ->
  path_matches (Route l ms ep) p = true ->
  p = l \/ p = (l ++ newline)%string.
Proof.
  unfold path_matches. cbn [route_path]. intros ->.
  destruct (match_pieces [Lit l] p) as [e|] eqn:E; [|discriminate].
  intros _. now apply match_lit_inv in E.
Qed.

(** A path matched by a route of [FastAPI()] is one of the four fixed
    paths, or one of them followed by a newline. *)
Lemma framework_path_inv (p : string) :
  matches_any (routes FastAPI) p = true ->
  exists l, In l literal_paths /\ (p = l \/ p = (l ++ newline)%string).
Proof.
  unfold matches_any, FastAPI, starlette_route. cbn [routes existsb].
  rewrite orb_false_r. intros H.
  repeat (apply orb_prop in H as [H|H]);
    apply path_matches_lit_inv in H; try reflexivity;
    eexists; (split; [|exact H]); cbn; auto.
Qed.

Lemma handlers_miss_framework_paths (p : string) :
  matches_any (routes FastAPI) p = true ->
  matches_any handler_routes p = false.
Proof.
  intros H. apply framework_path_inv in H as (l & Hl & Hp).
  cbn in Hl. decompose [or] Hl; try contradiction; subst l;
    destruct Hp as [->| ->]; reflexivity.
Qed.

(** The response on a path of the framework's routes, for any method. *)
Lemma respond_framework (m p q : string) hs b :
  matches_any (routes FastAPI) p = true ->
  exists pg,
    respond (Request m p q hs b)
    = if serves_pages m
      then Response 200 (PageContent pg) else method_not_allowed.
Proof.
  intros H. apply framework_path_inv in H as (l & Hl & Hp).
  unfold serves_pages.
  cbn in Hl. decompose [or] Hl; try contradiction; subst l;
    destruct Hp as [->| ->];
    eexists; rewrite respond_router; unfold eval, router, bind, get; cbn;
    rewrite ?orb_false_r;
    destruct (String.eqb m "GET") eqn:E1; destruct (String.eqb m "HEAD") eqn:E2;
    unfold handle, allows; cbn; rewrite ?E1, ?E2; cbn; reflexivity.
Qed.

Lemma handler_routes_split (p : string) :
  matches_any (routes app) p
  = matches_any (routes FastAPI) p || matches_any handler_routes p.
Proof. now rewrite app_routes, matches_any_append. Qed.

(** Every request falls under one of the four outcomes. *)
Lemma respond_outcome (req : request) : outcome req.
Proof.
  destruct (matches_any (routes FastAPI) (path req)) eqn:HF.
  - destruct req as [m p q hs b]. cbn [path] in HF.
    destruct (respond_framework m p q hs b HF) as [pg Hpg].
    apply (AtPage _ pg); cbn [path method]; auto using handlers_miss_framework_paths.
  - destruct (matches_any handler_routes (path req)) eqn:HH.
    + destruct req as [m p q hs b]. cbn [path] in HF, HH.
      destruct (handler_path_inv p HH) as [->|[->|(x & -> & Hn & Hs)]].
      * apply AtRoot; cbn [path method]; auto. apply respond_root.
      * apply AtRoot; cbn [path method]; auto. apply respond_root_newline.
      * apply (AtHello _ x); cbn [path method]; auto.
        -- unfold segment. now rewrite Hn, Hs.
        -- now apply respond_hello.
    + apply Unmatched; auto.
      * now rewrite handler_routes_split, HF, HH.
      * apply respond_unmatched. now rewrite handler_routes_split, HF, HH.
Qed.

(** ** Routing is unambiguous *)

(** X1. At most one route of the application has a pattern that matches a
    given path: the patterns of [read_root] and [read_item] overlap neither
    with each other nor with the paths [FastAPI()] routes. *)
Theorem routes_never_overlap (p : string) (r1 r2 : route) :
  In r1 (routes app) ->
  In r2 (routes app) ->
  path_matches r1 p = true ->
  path_matches r2 p = true ->
  r1 = r2.
Proof.
  intros H1 H2 M1 M2.
  rewrite app_routes in H1, H2.
  unfold FastAPI, starlette_route in H1, H2. cbn [routes List.app In] in H1, H2.
  decompose [or] H1; try contradiction; subst r1;
    (apply path_matches_hello_inv in M1 as (x & -> & _ & _)
     || (apply path_matches_lit_inv in M1 as [->| ->]; [| | reflexivity]));
    decompose [or] H2; try contradiction; subst r2;
    try reflexivity; discriminate M2.
Qed.

Lemma routes_never_overlap_witness :
  In hello_route (routes app)
  /\ path_matches hello_route "/hello/docs" = true
  /\ hello_route = hello_route.
Proof.
  split; [cbn; tauto | split; [reflexivity |]].
  apply (routes_never_overlap "/hello/docs" hello_route hello_route);
    first [reflexivity | cbn; tauto].
Defined.

(** ** The order of the registrations *)

Lemma swapped_routes :
  routes app_swapped = (routes FastAPI ++ [hello_route; root_route])%list.
Proof. reflexivity. Qed.

Lemma swapped_matches_any (p : string) :
  matches_any (routes app_swapped) p = matches_any (routes app) p.
Proof.
  rewrite swapped_routes, app_routes, !matches_any_append.
  f_equal. cbn [matches_any existsb]. rewrite !orb_false_r. apply orb_comm.
Qed.

(** The first response of the swapped application is the router's too. *)
Lemma swapped_router (req : request) :
  eval (app_call req) app_swapped
  = eval (router req) (set_middleware_stack (Some MiddlewareStack) app_swapped).
Proof. reflexivity. Qed.

Ltac enter_swapped_router :=
  rewrite swapped_router; unfold eval, router, bind, get;
  change (routes (set_middleware_stack (Some MiddlewareStack) app_swapped))
    with (routes app_swapped);
  change (redirect_slashes (set_middleware_stack (Some MiddlewareStack) app_swapped))
    with (redirect_slashes app).

Lemma swapped_unmatched (req : request) :
  matches_any (routes app) (path req) = false ->
  eval (app_call req) app_swapped
  = if matches_any (routes app) (toggle_slash (path req))
    then RedirectResponse else not_found.
Proof.
  intros H. enter_swapped_router.
  rewrite find_route_unmatched by (now rewrite swapped_matches_any).
  rewrite app_redirects, matches_some_any, swapped_matches_any. cbn [andb].
  destruct (String.eqb_spec (path req) "/") as [E|_].
  - rewrite E in H. discriminate H.
  - cbn [negb andb].
    now destruct (matches_any (routes app) (toggle_slash (path req))).
Qed.

Lemma swapped_find_route_hello (m x : string) :
  find_route (routes app_swapped) m ("/hello/" ++ x) None
  = if nonempty x && slash_free x
    then Some (hello_route, [("name", x)]) else None.
Proof.
  rewrite swapped_routes, find_route_append by apply framework_routes_miss_hello.
  cbn [find_route].
  replace (matches root_route m ("/hello/" ++ x)) with (NONE, @nil (string * string))
    by reflexivity.
  unfold matches. cbn [hello_route route_path]. rewrite match_hello.
  destruct (nonempty x && slash_free x); [|reflexivity].
  now destruct (allows _ m).
Qed.

Lemma swapped_respond_hello (m x q : string) hs b :
  nonempty x = true -> slash_free x = true ->
  eval (app_call (Request m ("/hello/" ++ x) q hs b)) app_swapped
  = if String.eqb m "GET" then greeting x else method_not_allowed.
Proof.
  intros Hn Hs. enter_swapped_router.
  cbn [method path query_string].
  rewrite swapped_find_route_hello, Hn, Hs. cbn [andb].
  unfold handle, allows. cbn [hello_route route_methods route_endpoint existsb].
  rewrite orb_false_r.
  now destruct (String.eqb m "GET").
Qed.

(** X2. The order of the two decorated functions matters for the schema
    only.  With [read_item] registered before [read_root], every request
    gets the status it gets from [app], and every request on a path other
    than that of the schema gets the same response; the schema lists the
    same two paths in the other order. *)
Theorem registration_order_reorders_the_schema (req : request) :
  status_code (eval (app_call req) app_swapped) = status_code (respond req)
  /\ (path_matches openapi_route (path req) = false ->
      eval (app_call req) app_swapped = respond req)
  /\ get_openapi (routes app_swapped) = rev (get_openapi (routes app))
  /\ get_openapi (routes app_swapped) <> get_openapi (routes app).
Proof.
  split; [| split; [| split; [reflexivity | discriminate]]].
  - destruct (respond_outcome req) as [H _ _ E | H HH _ E | x Hp Hx _ _ E | pg _ HF _].
    + now rewrite E, swapped_unmatched.
    + rewrite E. destruct req as [m p q hs b]. cbn [path method] in *.
      destruct H as [->| ->];
        rewrite swapped_router; unfold eval, router, bind, get; cbn;
        rewrite ?orb_false_r;
        destruct (String.eqb m "GET") eqn:E1;
        unfold handle, allows; cbn; rewrite ?E1; reflexivity.
    + rewrite E. destruct req as [m p q hs b]. cbn [path method] in *. subst p.
      unfold segment in Hx. apply andb_prop in Hx as [Hn Hs].
      now rewrite swapped_respond_hello.
    + destruct req as [m p q hs b]. cbn [path method] in *.
      apply framework_path_inv in HF as (l & Hl & Hp).
      cbn in Hl. decompose [or] Hl; try contradiction; subst l;
        destruct Hp as [->| ->];
        rewrite respond_router, swapped_router;
        unfold eval, router, bind, get; cbn; rewrite ?orb_false_r;
        destruct (String.eqb m "GET") eqn:E1; destruct (String.eqb m "HEAD") eqn:E2;
        unfold handle, allows; cbn; rewrite ?E1, ?E2; cbn; reflexivity.
  - intros Ho.
    destruct (respond_outcome req) as [H _ _ E | H HH _ E | x Hp Hx _ _ E | pg _ HF _].
    + now rewrite E, swapped_unmatched.
    + rewrite E. destruct req as [m p q hs b]. cbn [path method] in *.
      destruct H as [->| ->];
        rewrite swapped_router; unfold eval, router, bind, get; cbn;
        rewrite ?orb_false_r;
        destruct (String.eqb m "GET") eqn:E1;
        unfold handle, allows; cbn; rewrite ?E1; reflexivity.
    + rewrite E. destruct req as [m p q hs b]. cbn [path method] in *. subst p.
      unfold segment in Hx. apply andb_prop in Hx as [Hn Hs].
      now rewrite swapped_respond_hello.
    + destruct req as [m p q hs b]. cbn [path method] in *.
      apply framework_path_inv in HF as (l & Hl & Hp).
      cbn in Hl. decompose [or] Hl; try contradiction; subst l;
        destruct Hp as [->| ->]; try discriminate Ho;
        rewrite respond_router, swapped_router;
        unfold eval, router, bind, get; cbn; rewrite ?orb_false_r;
        destruct (String.eqb m "GET") eqn:E1; destruct (String.eqb m "HEAD") eqn:E2;
        unfold handle, allows; cbn; rewrite ?E1, ?E2; cbn; reflexivity.
Qed.

Lemma registration_order_reorders_the_schema_witness :
  eval (app_call (Request "GET" "/hello/World" "" [] "")) app_swapped
  = respond (Request "GET" "/hello/World" "" [] "").
Proof.
  apply (proj1 (proj2 (registration_order_reorders_the_schema
                         (Request "GET" "/hello/World" "" [] "")))).
  reflexivity.
Defined.

(** ** What the responses can be *)


(** X4. A request succeeds with 200 exactly when it is a GET on a path of
    [read_root]'s or [read_item]'s route, or a GET or HEAD on a path of the
    routes [FastAPI()] registers. *)
Theorem success_iff (req : request) :
  status_code (respond req) = 200
  <-> (method req = "GET" /\ matches_any handler_routes (path req) = true)
      \/ (serves_pages (method req) = true
          /\ matches_any (routes FastAPI) (path req) = true).
Proof.
  destruct (respond_outcome req) as [_ HH HF E | _ HH HF E | x _ _ HH HF E | pg HH HF E];
    rewrite E, HH, HF.
  - split.
    + destruct (matches_any (routes app) (toggle_slash (path req))); discriminate.
    + intros [[_ H]|[_ H]]; discriminate H.
  - destruct (String.eqb_spec (method req) "GET") as [Hm|Hm].
    + split; [auto | reflexivity].
    + split; [discriminate |]. intros [[H _]|[_ H]]; [contradiction | discriminate H].
  - destruct (String.eqb_spec (method req) "GET") as [Hm|Hm].
    + split; [auto | reflexivity].
    + split; [discriminate |]. intros [[H _]|[_ H]]; [contradiction | discriminate H].
  - destruct (serves_pages (method req)).
    + split; [auto | reflexivity].
    + split; [discriminate |]. intros [[_ H]|[H _]]; discriminate H.
Qed.

Lemma success_iff_witness :
  status_code (respond (Request "GET" "/hello/World" "" [] "")) = 200
  /\ status_code (respond (Request "POST" "/hello/World" "" [] "")) <> 200.
Proof.
  split.
  - apply (proj2 (success_iff (Request "GET" "/hello/World" "" [] ""))).
    left. split; reflexivity.
  - intros H.
    apply (proj1 (success_iff (Request "POST" "/hello/World" "" [] ""))) in H.
    destruct H as [[H _]|[H _]]; discriminate H.
Defined.

(** X5. A body is produced only on its own route.  A response whose body
    is [{"message": "Hello x!"}] answers a GET on [/hello/x], with [x] a
    non-empty name without ['/']; a response whose body is the welcome
    object answers a GET on ["/"] (or on ["/"] followed by a newline, which
    the pattern accepts too). *)
Theorem bodies_come_from_their_route (req : request) :
  (forall x : string,
      media (respond req) = JsonContent (JObj [("message", JStr (hello_message x))]) ->
      method req = "GET" /\ path req = ("/hello/" ++ x)%string /\ segment x = true)
  /\ (media (respond req) = JsonContent (JObj [("message", JStr welcome_message)]) ->
      method req = "GET" /\ (path req = "/" \/ path req = ("/" ++ newline)%string)).
Proof.
  destruct (respond_outcome req) as [_ _ _ E | Hp _ _ E | y Hp Hy _ _ E | pg _ _ E];
    rewrite E; clear E.
  - destruct (matches_any (routes app) (toggle_slash (path req)));
      split; [intros x H | intros H | intros x H | intros H]; discriminate H.
  - destruct (String.eqb_spec (method req) "GET") as [Hm|Hm].
    + split; [intros x H; discriminate H | auto].
    + split; [intros x H | intros H]; discriminate H.
  - destruct (String.eqb_spec (method req) "GET") as [Hm|Hm].
    + split; [| intros H; discriminate H].
      intros x H. injection H as H.
      apply append_inv_tail in H. subst y. auto.
    + split; [intros x H | intros H]; discriminate H.
  - destruct (serves_pages (method req));
      split; [intros x H | intros H | intros x H | intros H]; discriminate H.
Qed.

Lemma bodies_come_from_their_route_witness :
  path (Request "GET" "/hello/World" "a=1" [] "") = "/hello/World"
  /\ method (Request "GET" "/" "" [] "") = "GET".
Proof.
  split.
  - apply (proj1 (bodies_come_from_their_route
                    (Request "GET" "/hello/World" "a=1" [] "")) "World").
    reflexivity.
  - apply (proj2 (bodies_come_from_their_route (Request "GET" "/" "" [] ""))).
    reflexivity.
Defined.



(** ** The slash redirect *)






